(** * ACT policy configuration: construction and validation

    A shallow embedding of
    [lerobot/common/policies/act/configuration_act.py]: the dataclass
    [ActionChunkingTransformerConfig], the [__init__] that the [@dataclass]
    decorator generates for it, and its [__post_init__] validation. *)

From Stdlib Require Import ZArith String List Lia.
From Stdlib Require Import Floats.PrimFloat.
From stdpp Require Import base strings gmap list.

Open Scope Z_scope.
Open Scope string_scope.

(** ** The Python values the configuration touches *)

Module Py.

(** A sequence of strings is either a tuple or a list.  The field
    [camera_names] is annotated [tuple[str]] and compared with a list
    literal, so both shapes matter. *)
Inductive seq_value :=
| PyTuple (items : list string)
| PyList (items : list string).

Definition items_of (s : seq_value) : list string :=
  match s with
  | PyTuple l => l
  | PyList l => l
  end.

(** [a == b] on sequences: a tuple never equals a list; two sequences of
    the same type are equal when their items are. *)
Definition seq_eq (a b : seq_value) : bool :=
  match a, b with
  | PyTuple x, PyTuple y => bool_decide (x = y)
  | PyList x, PyList y => bool_decide (x = y)
  | _, _ => false
  end.

(** [a != b]. *)
Definition seq_ne (a b : seq_value) : bool := negb (seq_eq a b).

(** [len(s)]. *)
Definition len (s : seq_value) : nat := length (items_of s).

(** [len(set(s))]. *)
Definition len_set (s : seq_value) : nat :=
  size (list_to_set (C := gset string) (items_of s)).

(** [s.startswith(p)]. *)
Definition startswith (s p : string) : bool := String.prefix p s.

(** A number-valued field whose default is not of the annotated type:
    [replace_final_stride_with_dilation: int = False] and
    [grad_clip_norm: float = 10]. *)
Inductive number :=
| PyBool (b : bool)
| PyInt (z : Z)
| PyFloat (f : float).

(** The pieces of an f-string: literal text and the interpolated values,
    kept unformatted. *)
Inductive fragment :=
| Lit (text : string)
| FmtStr (s : string)
| FmtInt (z : Z)
| FmtSeq (s : seq_value).

Inductive exception :=
| ValueError (msg : list fragment)
| NotImplementedError (msg : list fragment).

(** A computation either returns or raises. *)
Inductive result (A : Type) :=
| Return (a : A)
| Raise (e : exception).
Arguments Return {A} a.
Arguments Raise {A} e.

Definition and_then {A B} (r : result A) (k : A -> result B) : result B :=
  match r with
  | Return a => k a
  | Raise e => Raise e
  end.

(** [if cond: raise e]. *)
Definition raise_if (cond : bool) (e : exception) : result unit :=
  if cond then Raise e else Return tt.

End Py.

Import Py.

Declare Scope py_scope.
Delimit Scope py_scope with py.
Notation "r ;; k" := (and_then r (fun _ => k))
  (at level 100, k at level 200, right associativity) : py_scope.
Open Scope py_scope.

(** ** The dataclass *)

Record ActionChunkingTransformerConfig := {
  (* Environment. *)
  state_dim : Z;
  action_dim : Z;
  (* Inputs / output structure. *)
  n_obs_steps : Z;
  camera_names : seq_value;
  chunk_size : Z;
  n_action_steps : Z;
  input_shapes : gmap string (list Z);
  output_shapes : gmap string (list Z);
  (* Normalization / Unnormalization *)
  normalize_input_modes : gmap string string;
  unnormalize_output_modes : gmap string string;
  (* Architecture. *)
  vision_backbone : string;
  use_pretrained_backbone : bool;
  replace_final_stride_with_dilation : number;
  pre_norm : bool;
  d_model : Z;
  n_heads : Z;
  dim_feedforward : Z;
  feedforward_activation : string;
  n_encoder_layers : Z;
  n_decoder_layers : Z;
  (* VAE. *)
  use_vae : bool;
  latent_dim : Z;
  n_vae_encoder_layers : Z;
  (* Inference. *)
  use_temporal_aggregation : bool;
  (* Training and loss computation. *)
  dropout : float;
  kl_weight : float;
  batch_size : Z;
  lr : float;
  lr_backbone : float;
  weight_decay : float;
  grad_clip_norm : number;
  utd : Z
}.

(** The keyword arguments of a constructor call: [None] for a field the
    caller leaves out. *)
Record Kwargs := {
  kw_state_dim : option Z;
  kw_action_dim : option Z;
  kw_n_obs_steps : option Z;
  kw_camera_names : option seq_value;
  kw_chunk_size : option Z;
  kw_n_action_steps : option Z;
  kw_input_shapes : option (gmap string (list Z));
  kw_output_shapes : option (gmap string (list Z));
  kw_normalize_input_modes : option (gmap string string);
  kw_unnormalize_output_modes : option (gmap string string);
  kw_vision_backbone : option string;
  kw_use_pretrained_backbone : option bool;
  kw_replace_final_stride_with_dilation : option number;
  kw_pre_norm : option bool;
  kw_d_model : option Z;
  kw_n_heads : option Z;
  kw_dim_feedforward : option Z;
  kw_feedforward_activation : option string;
  kw_n_encoder_layers : option Z;
  kw_n_decoder_layers : option Z;
  kw_use_vae : option bool;
  kw_latent_dim : option Z;
  kw_n_vae_encoder_layers : option Z;
  kw_use_temporal_aggregation : option bool;
  kw_dropout : option float;
  kw_kl_weight : option float;
  kw_batch_size : option Z;
  kw_lr : option float;
  kw_lr_backbone : option float;
  kw_weight_decay : option float;
  kw_grad_clip_norm : option number;
  kw_utd : option Z
}.

(** A call with no keyword argument at all. *)
Definition no_overrides : Kwargs := {|
  kw_state_dim := None; kw_action_dim := None; kw_n_obs_steps := None;
  kw_camera_names := None; kw_chunk_size := None; kw_n_action_steps := None;
  kw_input_shapes := None; kw_output_shapes := None;
  kw_normalize_input_modes := None; kw_unnormalize_output_modes := None;
  kw_vision_backbone := None; kw_use_pretrained_backbone := None;
  kw_replace_final_stride_with_dilation := None; kw_pre_norm := None;
  kw_d_model := None; kw_n_heads := None; kw_dim_feedforward := None;
  kw_feedforward_activation := None; kw_n_encoder_layers := None;
  kw_n_decoder_layers := None; kw_use_vae := None; kw_latent_dim := None;
  kw_n_vae_encoder_layers := None; kw_use_temporal_aggregation := None;
  kw_dropout := None; kw_kl_weight := None; kw_batch_size := None;
  kw_lr := None; kw_lr_backbone := None; kw_weight_decay := None;
  kw_grad_clip_norm := None; kw_utd := None
|}.

(** The argument when it is given, the declared default otherwise. *)
Definition arg {A} (given : option A) (dflt : A) : A :=
  match given with
  | Some v => v
  | None => dflt
  end.

(** The field assignments of the generated [__init__]; the float literals
    are the binary64 values of 0.1, 10.0, 1e-5 and 1e-4. *)
Definition assign_fields (kw : Kwargs) : ActionChunkingTransformerConfig := {|
  state_dim := arg (kw_state_dim kw) 14;
  action_dim := arg (kw_action_dim kw) 14;
  n_obs_steps := arg (kw_n_obs_steps kw) 1;
  camera_names := arg (kw_camera_names kw) (PyTuple ["top"]);
  chunk_size := arg (kw_chunk_size kw) 100;
  n_action_steps := arg (kw_n_action_steps kw) 100;
  input_shapes :=
    arg (kw_input_shapes kw)
        {[ "observation.images.top" := [3; 480; 640];
           "observation.state" := [14] ]};
  output_shapes := arg (kw_output_shapes kw) {[ "action" := [14] ]};
  normalize_input_modes :=
    arg (kw_normalize_input_modes kw)
        {[ "observation.image" := "mean_std";
           "observation.state" := "mean_std" ]};
  unnormalize_output_modes :=
    arg (kw_unnormalize_output_modes kw) {[ "action" := "mean_std" ]};
  vision_backbone := arg (kw_vision_backbone kw) "resnet18";
  use_pretrained_backbone := arg (kw_use_pretrained_backbone kw) true;
  replace_final_stride_with_dilation :=
    arg (kw_replace_final_stride_with_dilation kw) (PyBool false);
  pre_norm := arg (kw_pre_norm kw) false;
  d_model := arg (kw_d_model kw) 512;
  n_heads := arg (kw_n_heads kw) 8;
  dim_feedforward := arg (kw_dim_feedforward kw) 3200;
  feedforward_activation := arg (kw_feedforward_activation kw) "relu";
  n_encoder_layers := arg (kw_n_encoder_layers kw) 4;
  n_decoder_layers := arg (kw_n_decoder_layers kw) 1;
  use_vae := arg (kw_use_vae kw) true;
  latent_dim := arg (kw_latent_dim kw) 32;
  n_vae_encoder_layers := arg (kw_n_vae_encoder_layers kw) 4;
  use_temporal_aggregation := arg (kw_use_temporal_aggregation kw) false;
  dropout := arg (kw_dropout kw) 0x1.999999999999ap-4%float;
  kl_weight := arg (kw_kl_weight kw) 0x1.4p+3%float;
  batch_size := arg (kw_batch_size kw) 8;
  lr := arg (kw_lr kw) 0x1.4f8b588e368f1p-17%float;
  lr_backbone := arg (kw_lr_backbone kw) 0x1.4f8b588e368f1p-17%float;
  weight_decay := arg (kw_weight_decay kw) 0x1.a36e2eb1c432dp-14%float;
  grad_clip_norm := arg (kw_grad_clip_norm kw) (PyInt 10);
  utd := arg (kw_utd kw) 1
|}.

(** Input validation (not exhaustive). *)
Definition __post_init__ (self : ActionChunkingTransformerConfig) : result unit :=
  raise_if (negb (startswith (vision_backbone self) "resnet"))
    (ValueError
       [Lit "`vision_backbone` must be one of the ResNet variants. Got ";
        FmtStr (vision_backbone self); Lit "."]) ;;
  raise_if (use_temporal_aggregation self)
    (NotImplementedError [Lit "Temporal aggregation is not yet implemented."]) ;;
  raise_if (n_action_steps self >? chunk_size self)%Z
    (ValueError
       [Lit "The chunk size is the upper bound for the number of action steps per model invocation. Got ";
        FmtInt (n_action_steps self); Lit " for `n_action_steps` and ";
        FmtInt (chunk_size self); Lit " for `chunk_size`."]) ;;
  raise_if (negb (n_obs_steps self =? 1)%Z)
    (ValueError
       [Lit "Multiple observation steps not handled yet. Got `nobs_steps=";
        FmtInt (n_obs_steps self); Lit "`"]) ;;
  raise_if (seq_ne (camera_names self) (PyList ["top"]))
    (ValueError
       [Lit "For now, `camera_names` can only be ['top']. Got ";
        FmtSeq (camera_names self); Lit "."]) ;;
  raise_if (negb (Nat.eqb (len_set (camera_names self)) (len (camera_names self))))
    (ValueError
       [Lit "`camera_names` should not have any repeated entries. Got ";
        FmtSeq (camera_names self); Lit "."]).

(** The generated constructor: assign every field, validate, and hand the
    object to the caller only when validation returned. *)
Definition __init__ (kw : Kwargs) : result ActionChunkingTransformerConfig :=
  let self := assign_fields kw in
  __post_init__ self ;; Return self.

(** ** Keyword arguments of a call, one at a time

    [with_f v kw] is the call [kw] with the keyword argument [f=v] given
    (replacing an earlier [f=...]). *)

Definition with_state_dim (v : Z) (kw : Kwargs) : Kwargs := {|
  kw_state_dim := Some v;
  kw_action_dim := kw_action_dim kw;
  kw_n_obs_steps := kw_n_obs_steps kw;
  kw_camera_names := kw_camera_names kw;
  kw_chunk_size := kw_chunk_size kw;
  kw_n_action_steps := kw_n_action_steps kw;
  kw_input_shapes := kw_input_shapes kw;
  kw_output_shapes := kw_output_shapes kw;
  kw_normalize_input_modes := kw_normalize_input_modes kw;
  kw_unnormalize_output_modes := kw_unnormalize_output_modes kw;
  kw_vision_backbone := kw_vision_backbone kw;
  kw_use_pretrained_backbone := kw_use_pretrained_backbone kw;
  kw_replace_final_stride_with_dilation := kw_replace_final_stride_with_dilation kw;
  kw_pre_norm := kw_pre_norm kw;
  kw_d_model := kw_d_model kw;
  kw_n_heads := kw_n_heads kw;
  kw_dim_feedforward := kw_dim_feedforward kw;
  kw_feedforward_activation := kw_feedforward_activation kw;
  kw_n_encoder_layers := kw_n_encoder_layers kw;
  kw_n_decoder_layers := kw_n_decoder_layers kw;
  kw_use_vae := kw_use_vae kw;
  kw_latent_dim := kw_latent_dim kw;
  kw_n_vae_encoder_layers := kw_n_vae_encoder_layers kw;
  kw_use_temporal_aggregation := kw_use_temporal_aggregation kw;
  kw_dropout := kw_dropout kw;
  kw_kl_weight := kw_kl_weight kw;
  kw_batch_size := kw_batch_size kw;
  kw_lr := kw_lr kw;
  kw_lr_backbone := kw_lr_backbone kw;
  kw_weight_decay := kw_weight_decay kw;
  kw_grad_clip_norm := kw_grad_clip_norm kw;
  kw_utd := kw_utd kw
|}.

Definition with_action_dim (v : Z) (kw : Kwargs) : Kwargs := {|
  kw_state_dim := kw_state_dim kw;
  kw_action_dim := Some v;
  kw_n_obs_steps := kw_n_obs_steps kw;
  kw_camera_names := kw_camera_names kw;
  kw_chunk_size := kw_chunk_size kw;
  kw_n_action_steps := kw_n_action_steps kw;
  kw_input_shapes := kw_input_shapes kw;
  kw_output_shapes := kw_output_shapes kw;
  kw_normalize_input_modes := kw_normalize_input_modes kw;
  kw_unnormalize_output_modes := kw_unnormalize_output_modes kw;
  kw_vision_backbone := kw_vision_backbone kw;
  kw_use_pretrained_backbone := kw_use_pretrained_backbone kw;
  kw_replace_final_stride_with_dilation := kw_replace_final_stride_with_dilation kw;
  kw_pre_norm := kw_pre_norm kw;
  kw_d_model := kw_d_model kw;
  kw_n_heads := kw_n_heads kw;
  kw_dim_feedforward := kw_dim_feedforward kw;
  kw_feedforward_activation := kw_feedforward_activation kw;
  kw_n_encoder_layers := kw_n_encoder_layers kw;
  kw_n_decoder_layers := kw_n_decoder_layers kw;
  kw_use_vae := kw_use_vae kw;
  kw_latent_dim := kw_latent_dim kw;
  kw_n_vae_encoder_layers := kw_n_vae_encoder_layers kw;
  kw_use_temporal_aggregation := kw_use_temporal_aggregation kw;
  kw_dropout := kw_dropout kw;
  kw_kl_weight := kw_kl_weight kw;
  kw_batch_size := kw_batch_size kw;
  kw_lr := kw_lr kw;
  kw_lr_backbone := kw_lr_backbone kw;
  kw_weight_decay := kw_weight_decay kw;
  kw_grad_clip_norm := kw_grad_clip_norm kw;
  kw_utd := kw_utd kw
|}.

Definition with_n_obs_steps (v : Z) (kw : Kwargs) : Kwargs := {|
  kw_state_dim := kw_state_dim kw;
  kw_action_dim := kw_action_dim kw;
  kw_n_obs_steps := Some v;
  kw_camera_names := kw_camera_names kw;
  kw_chunk_size := kw_chunk_size kw;
  kw_n_action_steps := kw_n_action_steps kw;
  kw_input_shapes := kw_input_shapes kw;
  kw_output_shapes := kw_output_shapes kw;
  kw_normalize_input_modes := kw_normalize_input_modes kw;
  kw_unnormalize_output_modes := kw_unnormalize_output_modes kw;
  kw_vision_backbone := kw_vision_backbone kw;
  kw_use_pretrained_backbone := kw_use_pretrained_backbone kw;
  kw_replace_final_stride_with_dilation := kw_replace_final_stride_with_dilation kw;
  kw_pre_norm := kw_pre_norm kw;
  kw_d_model := kw_d_model kw;
  kw_n_heads := kw_n_heads kw;
  kw_dim_feedforward := kw_dim_feedforward kw;
  kw_feedforward_activation := kw_feedforward_activation kw;
  kw_n_encoder_layers := kw_n_encoder_layers kw;
  kw_n_decoder_layers := kw_n_decoder_layers kw;
  kw_use_vae := kw_use_vae kw;
  kw_latent_dim := kw_latent_dim kw;
  kw_n_vae_encoder_layers := kw_n_vae_encoder_layers kw;
  kw_use_temporal_aggregation := kw_use_temporal_aggregation kw;
  kw_dropout := kw_dropout kw;
  kw_kl_weight := kw_kl_weight kw;
  kw_batch_size := kw_batch_size kw;
  kw_lr := kw_lr kw;
  kw_lr_backbone := kw_lr_backbone kw;
  kw_weight_decay := kw_weight_decay kw;
  kw_grad_clip_norm := kw_grad_clip_norm kw;
  kw_utd := kw_utd kw
|}.

Definition with_camera_names (v : seq_value) (kw : Kwargs) : Kwargs := {|
  kw_state_dim := kw_state_dim kw;
  kw_action_dim := kw_action_dim kw;
  kw_n_obs_steps := kw_n_obs_steps kw;
  kw_camera_names := Some v;
  kw_chunk_size := kw_chunk_size kw;
  kw_n_action_steps := kw_n_action_steps kw;
  kw_input_shapes := kw_input_shapes kw;
  kw_output_shapes := kw_output_shapes kw;
  kw_normalize_input_modes := kw_normalize_input_modes kw;
  kw_unnormalize_output_modes := kw_unnormalize_output_modes kw;
  kw_vision_backbone := kw_vision_backbone kw;
  kw_use_pretrained_backbone := kw_use_pretrained_backbone kw;
  kw_replace_final_stride_with_dilation := kw_replace_final_stride_with_dilation kw;
  kw_pre_norm := kw_pre_norm kw;
  kw_d_model := kw_d_model kw;
  kw_n_heads := kw_n_heads kw;
  kw_dim_feedforward := kw_dim_feedforward kw;
  kw_feedforward_activation := kw_feedforward_activation kw;
  kw_n_encoder_layers := kw_n_encoder_layers kw;
  kw_n_decoder_layers := kw_n_decoder_layers kw;
  kw_use_vae := kw_use_vae kw;
  kw_latent_dim := kw_latent_dim kw;
  kw_n_vae_encoder_layers := kw_n_vae_encoder_layers kw;
  kw_use_temporal_aggregation := kw_use_temporal_aggregation kw;
  kw_dropout := kw_dropout kw;
  kw_kl_weight := kw_kl_weight kw;
  kw_batch_size := kw_batch_size kw;
  kw_lr := kw_lr kw;
  kw_lr_backbone := kw_lr_backbone kw;
  kw_weight_decay := kw_weight_decay kw;
  kw_grad_clip_norm := kw_grad_clip_norm kw;
  kw_utd := kw_utd kw
|}.

Definition with_chunk_size (v : Z) (kw : Kwargs) : Kwargs := {|
  kw_state_dim := kw_state_dim kw;
  kw_action_dim := kw_action_dim kw;
  kw_n_obs_steps := kw_n_obs_steps kw;
  kw_camera_names := kw_camera_names kw;
  kw_chunk_size := Some v;
  kw_n_action_steps := kw_n_action_steps kw;
  kw_input_shapes := kw_input_shapes kw;
  kw_output_shapes := kw_output_shapes kw;
  kw_normalize_input_modes := kw_normalize_input_modes kw;
  kw_unnormalize_output_modes := kw_unnormalize_output_modes kw;
  kw_vision_backbone := kw_vision_backbone kw;
  kw_use_pretrained_backbone := kw_use_pretrained_backbone kw;
  kw_replace_final_stride_with_dilation := kw_replace_final_stride_with_dilation kw;
  kw_pre_norm := kw_pre_norm kw;
  kw_d_model := kw_d_model kw;
  kw_n_heads := kw_n_heads kw;
  kw_dim_feedforward := kw_dim_feedforward kw;
  kw_feedforward_activation := kw_feedforward_activation kw;
  kw_n_encoder_layers := kw_n_encoder_layers kw;
  kw_n_decoder_layers := kw_n_decoder_layers kw;
  kw_use_vae := kw_use_vae kw;
  kw_latent_dim := kw_latent_dim kw;
  kw_n_vae_encoder_layers := kw_n_vae_encoder_layers kw;
  kw_use_temporal_aggregation := kw_use_temporal_aggregation kw;
  kw_dropout := kw_dropout kw;
  kw_kl_weight := kw_kl_weight kw;
  kw_batch_size := kw_batch_size kw;
  kw_lr := kw_lr kw;
  kw_lr_backbone := kw_lr_backbone kw;
  kw_weight_decay := kw_weight_decay kw;
  kw_grad_clip_norm := kw_grad_clip_norm kw;
  kw_utd := kw_utd kw
|}.

Definition with_n_action_steps (v : Z) (kw : Kwargs) : Kwargs := {|
  kw_state_dim := kw_state_dim kw;
  kw_action_dim := kw_action_dim kw;
  kw_n_obs_steps := kw_n_obs_steps kw;
  kw_camera_names := kw_camera_names kw;
  kw_chunk_size := kw_chunk_size kw;
  kw_n_action_steps := Some v;
  kw_input_shapes := kw_input_shapes kw;
  kw_output_shapes := kw_output_shapes kw;
  kw_normalize_input_modes := kw_normalize_input_modes kw;
  kw_unnormalize_output_modes := kw_unnormalize_output_modes kw;
  kw_vision_backbone := kw_vision_backbone kw;
  kw_use_pretrained_backbone := kw_use_pretrained_backbone kw;
  kw_replace_final_stride_with_dilation := kw_replace_final_stride_with_dilation kw;
  kw_pre_norm := kw_pre_norm kw;
  kw_d_model := kw_d_model kw;
  kw_n_heads := kw_n_heads kw;
  kw_dim_feedforward := kw_dim_feedforward kw;
  kw_feedforward_activation := kw_feedforward_activation kw;
  kw_n_encoder_layers := kw_n_encoder_layers kw;
  kw_n_decoder_layers := kw_n_decoder_layers kw;
  kw_use_vae := kw_use_vae kw;
  kw_latent_dim := kw_latent_dim kw;
  kw_n_vae_encoder_layers := kw_n_vae_encoder_layers kw;
  kw_use_temporal_aggregation := kw_use_temporal_aggregation kw;
  kw_dropout := kw_dropout kw;
  kw_kl_weight := kw_kl_weight kw;
  kw_batch_size := kw_batch_size kw;
  kw_lr := kw_lr kw;
  kw_lr_backbone := kw_lr_backbone kw;
  kw_weight_decay := kw_weight_decay kw;
  kw_grad_clip_norm := kw_grad_clip_norm kw;
  kw_utd := kw_utd kw
|}.

Definition with_vision_backbone (v : string) (kw : Kwargs) : Kwargs := {|
  kw_state_dim := kw_state_dim kw;
  kw_action_dim := kw_action_dim kw;
  kw_n_obs_steps := kw_n_obs_steps kw;
  kw_camera_names := kw_camera_names kw;
  kw_chunk_size := kw_chunk_size kw;
  kw_n_action_steps := kw_n_action_steps kw;
  kw_input_shapes := kw_input_shapes kw;
  kw_output_shapes := kw_output_shapes kw;
  kw_normalize_input_modes := kw_normalize_input_modes kw;
  kw_unnormalize_output_modes := kw_unnormalize_output_modes kw;
  kw_vision_backbone := Some v;
  kw_use_pretrained_backbone := kw_use_pretrained_backbone kw;
  kw_replace_final_stride_with_dilation := kw_replace_final_stride_with_dilation kw;
  kw_pre_norm := kw_pre_norm kw;
  kw_d_model := kw_d_model kw;
  kw_n_heads := kw_n_heads kw;
  kw_dim_feedforward := kw_dim_feedforward kw;
  kw_feedforward_activation := kw_feedforward_activation kw;
  kw_n_encoder_layers := kw_n_encoder_layers kw;
  kw_n_decoder_layers := kw_n_decoder_layers kw;
  kw_use_vae := kw_use_vae kw;
  kw_latent_dim := kw_latent_dim kw;
  kw_n_vae_encoder_layers := kw_n_vae_encoder_layers kw;
  kw_use_temporal_aggregation := kw_use_temporal_aggregation kw;
  kw_dropout := kw_dropout kw;
  kw_kl_weight := kw_kl_weight kw;
  kw_batch_size := kw_batch_size kw;
  kw_lr := kw_lr kw;
  kw_lr_backbone := kw_lr_backbone kw;
  kw_weight_decay := kw_weight_decay kw;
  kw_grad_clip_norm := kw_grad_clip_norm kw;
  kw_utd := kw_utd kw
|}.

Definition with_use_temporal_aggregation (v : bool) (kw : Kwargs) : Kwargs := {|
  kw_state_dim := kw_state_dim kw;
  kw_action_dim := kw_action_dim kw;
  kw_n_obs_steps := kw_n_obs_steps kw;
  kw_camera_names := kw_camera_names kw;
  kw_chunk_size := kw_chunk_size kw;
  kw_n_action_steps := kw_n_action_steps kw;
  kw_input_shapes := kw_input_shapes kw;
  kw_output_shapes := kw_output_shapes kw;
  kw_normalize_input_modes := kw_normalize_input_modes kw;
  kw_unnormalize_output_modes := kw_unnormalize_output_modes kw;
  kw_vision_backbone := kw_vision_backbone kw;
  kw_use_pretrained_backbone := kw_use_pretrained_backbone kw;
  kw_replace_final_stride_with_dilation := kw_replace_final_stride_with_dilation kw;
  kw_pre_norm := kw_pre_norm kw;
  kw_d_model := kw_d_model kw;
  kw_n_heads := kw_n_heads kw;
  kw_dim_feedforward := kw_dim_feedforward kw;
  kw_feedforward_activation := kw_feedforward_activation kw;
  kw_n_encoder_layers := kw_n_encoder_layers kw;
  kw_n_decoder_layers := kw_n_decoder_layers kw;
  kw_use_vae := kw_use_vae kw;
  kw_latent_dim := kw_latent_dim kw;
  kw_n_vae_encoder_layers := kw_n_vae_encoder_layers kw;
  kw_use_temporal_aggregation := Some v;
  kw_dropout := kw_dropout kw;
  kw_kl_weight := kw_kl_weight kw;
  kw_batch_size := kw_batch_size kw;
  kw_lr := kw_lr kw;
  kw_lr_backbone := kw_lr_backbone kw;
  kw_weight_decay := kw_weight_decay kw;
  kw_grad_clip_norm := kw_grad_clip_norm kw;
  kw_utd := kw_utd kw
|}.

(** ** The exceptions of [__post_init__], by raise site *)

Definition backbone_error (self : ActionChunkingTransformerConfig) : exception :=
  ValueError
    [Lit "`vision_backbone` must be one of the ResNet variants. Got ";
     FmtStr (vision_backbone self); Lit "."].

Definition temporal_aggregation_error : exception :=
  NotImplementedError [Lit "Temporal aggregation is not yet implemented."].

Definition chunk_bound_error (self : ActionChunkingTransformerConfig) : exception :=
  ValueError
    [Lit "The chunk size is the upper bound for the number of action steps per model invocation. Got ";
     FmtInt (n_action_steps self); Lit " for `n_action_steps` and ";
     FmtInt (chunk_size self); Lit " for `chunk_size`."].

Definition obs_steps_error (self : ActionChunkingTransformerConfig) : exception :=
  ValueError
    [Lit "Multiple observation steps not handled yet. Got `nobs_steps=";
     FmtInt (n_obs_steps self); Lit "`"].

Definition only_top_error (self : ActionChunkingTransformerConfig) : exception :=
  ValueError
    [Lit "For now, `camera_names` can only be ['top']. Got ";
     FmtSeq (camera_names self); Lit "."].

Definition repeated_entries_error (self : ActionChunkingTransformerConfig) : exception :=
  ValueError
    [Lit "`camera_names` should not have any repeated entries. Got ";
     FmtSeq (camera_names self); Lit "."].

(** ** The specification's vocabulary *)

(** The error taxonomy of the specification: [ValueError] is its
    InvalidValue, [NotImplementedError] its Unimplemented. *)
Inductive error_kind := InvalidValue | Unimplemented.

Definition kind_of (e : exception) : error_kind :=
  match e with
  | ValueError _ => InvalidValue
  | NotImplementedError _ => Unimplemented
  end.

(** The six validation rules, named after what the specification asks. *)
Inductive rule :=
| BackboneIsResnet
| NoTemporalAggregation
| ActionStepsWithinChunk
| SingleObsStep
| CamerasAreTop
| CamerasDistinct.

(** The order in which the specification lists them. *)
Definition spec_rules : list rule :=
  [BackboneIsResnet; NoTemporalAggregation; ActionStepsWithinChunk;
   SingleObsStep; CamerasAreTop; CamerasDistinct].

(** What each rule asks of a configuration, in the specification's words:
    the backbone name starts with "resnet"; the flag is false;
    [n_action_steps <= chunk_size]; [n_obs_steps] equals 1; [camera_names]
    equals the single-element sequence ["top"]; [camera_names] has no
    duplicate entry. *)
Definition rule_holds (r : rule) (c : ActionChunkingTransformerConfig) : bool :=
  match r with
  | BackboneIsResnet => String.prefix "resnet" (vision_backbone c)
  | NoTemporalAggregation => negb (use_temporal_aggregation c)
  | ActionStepsWithinChunk => (n_action_steps c <=? chunk_size c)%Z
  | SingleObsStep => (n_obs_steps c =? 1)%Z
  | CamerasAreTop => seq_eq (camera_names c) (PyList ["top"])
  | CamerasDistinct => bool_decide (NoDup (items_of (camera_names c)))
  end.

(** The error kind the specification attaches to each rule. *)
Definition rule_kind (r : rule) : error_kind :=
  match r with
  | NoTemporalAggregation => Unimplemented
  | _ => InvalidValue
  end.

(** The exception of the raise site that enforces each rule. *)
Definition rule_error (r : rule) (c : ActionChunkingTransformerConfig) : exception :=
  match r with
  | BackboneIsResnet => backbone_error c
  | NoTemporalAggregation => temporal_aggregation_error
  | ActionStepsWithinChunk => chunk_bound_error c
  | SingleObsStep => obs_steps_error c
  | CamerasAreTop => only_top_error c
  | CamerasDistinct => repeated_entries_error c
  end.

(** The earliest rule of the list that a configuration violates. *)
Definition first_violated (c : ActionChunkingTransformerConfig) : option rule :=
  find (fun r => negb (rule_holds r c)) spec_rules.

(** A field of the constructed object holds the value supplied for it. *)
Definition as_supplied {A} (given : option A) (field : A) : Prop :=
  forall v, given = Some v -> field = v.

(** Every field of [c] holds the value that the call [kw] supplied. *)
Definition fields_as_supplied (kw : Kwargs) (c : ActionChunkingTransformerConfig) : Prop :=
  as_supplied (kw_state_dim kw) (state_dim c) /\
  as_supplied (kw_action_dim kw) (action_dim c) /\
  as_supplied (kw_n_obs_steps kw) (n_obs_steps c) /\
  as_supplied (kw_camera_names kw) (camera_names c) /\
  as_supplied (kw_chunk_size kw) (chunk_size c) /\
  as_supplied (kw_n_action_steps kw) (n_action_steps c) /\
  as_supplied (kw_input_shapes kw) (input_shapes c) /\
  as_supplied (kw_output_shapes kw) (output_shapes c) /\
  as_supplied (kw_normalize_input_modes kw) (normalize_input_modes c) /\
  as_supplied (kw_unnormalize_output_modes kw) (unnormalize_output_modes c) /\
  as_supplied (kw_vision_backbone kw) (vision_backbone c) /\
  as_supplied (kw_use_pretrained_backbone kw) (use_pretrained_backbone c) /\
  as_supplied (kw_replace_final_stride_with_dilation kw)
              (replace_final_stride_with_dilation c) /\
  as_supplied (kw_pre_norm kw) (pre_norm c) /\
  as_supplied (kw_d_model kw) (d_model c) /\
  as_supplied (kw_n_heads kw) (n_heads c) /\
  as_supplied (kw_dim_feedforward kw) (dim_feedforward c) /\
  as_supplied (kw_feedforward_activation kw) (feedforward_activation c) /\
  as_supplied (kw_n_encoder_layers kw) (n_encoder_layers c) /\
  as_supplied (kw_n_decoder_layers kw) (n_decoder_layers c) /\
  as_supplied (kw_use_vae kw) (use_vae c) /\
  as_supplied (kw_latent_dim kw) (latent_dim c) /\
  as_supplied (kw_n_vae_encoder_layers kw) (n_vae_encoder_layers c) /\
  as_supplied (kw_use_temporal_aggregation kw) (use_temporal_aggregation c) /\
  as_supplied (kw_dropout kw) (dropout c) /\
  as_supplied (kw_kl_weight kw) (kl_weight c) /\
  as_supplied (kw_batch_size kw) (batch_size c) /\
  as_supplied (kw_lr kw) (lr c) /\
  as_supplied (kw_lr_backbone kw) (lr_backbone c) /\
  as_supplied (kw_weight_decay kw) (weight_decay c) /\
  as_supplied (kw_grad_clip_norm kw) (grad_clip_norm c) /\
  as_supplied (kw_utd kw) (utd c).

(** The call that passes every field of [c] as a keyword argument, leaving
    nothing to the defaults. *)
Definition all_fields (c : ActionChunkingTransformerConfig) : Kwargs := {|
  kw_state_dim := Some (state_dim c);
  kw_action_dim := Some (action_dim c);
  kw_n_obs_steps := Some (n_obs_steps c);
  kw_camera_names := Some (camera_names c);
  kw_chunk_size := Some (chunk_size c);
  kw_n_action_steps := Some (n_action_steps c);
  kw_input_shapes := Some (input_shapes c);
  kw_output_shapes := Some (output_shapes c);
  kw_normalize_input_modes := Some (normalize_input_modes c);
  kw_unnormalize_output_modes := Some (unnormalize_output_modes c);
  kw_vision_backbone := Some (vision_backbone c);
  kw_use_pretrained_backbone := Some (use_pretrained_backbone c);
  kw_replace_final_stride_with_dilation := Some (replace_final_stride_with_dilation c);
  kw_pre_norm := Some (pre_norm c);
  kw_d_model := Some (d_model c);
  kw_n_heads := Some (n_heads c);
  kw_dim_feedforward := Some (dim_feedforward c);
  kw_feedforward_activation := Some (feedforward_activation c);
  kw_n_encoder_layers := Some (n_encoder_layers c);
  kw_n_decoder_layers := Some (n_decoder_layers c);
  kw_use_vae := Some (use_vae c);
  kw_latent_dim := Some (latent_dim c);
  kw_n_vae_encoder_layers := Some (n_vae_encoder_layers c);
  kw_use_temporal_aggregation := Some (use_temporal_aggregation c);
  kw_dropout := Some (dropout c);
  kw_kl_weight := Some (kl_weight c);
  kw_batch_size := Some (batch_size c);
  kw_lr := Some (lr c);
  kw_lr_backbone := Some (lr_backbone c);
  kw_weight_decay := Some (weight_decay c);
  kw_grad_clip_norm := Some (grad_clip_norm c);
  kw_utd := Some (utd c)
|}.

(** The outcomes of two calls agree: both return, or both raise the same
    exception. *)
Definition same_outcome
    (r1 r2 : result ActionChunkingTransformerConfig) : Prop :=
  match r1, r2 with
  | Return _, Return _ => True
  | Raise e1, Raise e2 => e1 = e2
  | _, _ => False
  end.

(** ** Lemmas on the Python values *)

Section SeqValue.

Lemma seq_eq_list (s : seq_value) (l : list string) :
  seq_eq s (PyList l) = true <-> s = PyList l.
Proof.
  destruct s as [x | x]; simpl.
  - split; discriminate.
  - rewrite bool_decide_eq_true. split; congruence.
Qed.

Lemma seq_eq_tuple_list (x l : list string) :
  seq_eq (PyTuple x) (PyList l) = false.
Proof. reflexivity. Qed.

Lemma seq_ne_list (s : seq_value) (l : list string) :
  seq_ne s (PyList l) = false <-> s = PyList l.
Proof.
  unfold seq_ne. rewrite negb_false_iff. apply seq_eq_list.
Qed.

(** [len(set(["top"])) == len(["top"])]. *)
Lemma len_set_only_top :
  Nat.eqb (len_set (PyList ["top"])) (len (PyList ["top"])) = true.
Proof. reflexivity. Qed.

(** The guard of the sixth [raise] on inputs with and without a repeated
    name, were it reached. *)
Example repeated_entries_guard_top_top :
  len_set (PyList ["top"; "top"]) = 1%nat /\ len (PyList ["top"; "top"]) = 2%nat.
Proof. split; reflexivity. Qed.

Example repeated_entries_guard_left_right :
  len_set (PyTuple ["left"; "right"]) = 2%nat /\
  len (PyTuple ["left"; "right"]) = 2%nat.
Proof. split; reflexivity. Qed.

Example startswith_examples :
  startswith "resnet18" "resnet" = true /\
  startswith "resnet" "resnet" = true /\
  startswith "vit_base" "resnet" = false /\
  startswith "res" "resnet" = false /\
  startswith "Resnet18" "resnet" = false.
Proof. repeat split; reflexivity. Qed.

Example seq_eq_examples :
  seq_eq (PyTuple ["top"]) (PyList ["top"]) = false /\
  seq_eq (PyList ["top"]) (PyList ["top"]) = true /\
  seq_eq (PyList ["top"; "top"]) (PyList ["top"]) = false /\
  seq_eq (PyList []) (PyList ["top"]) = false.
Proof. repeat split; reflexivity. Qed.

End SeqValue.

(** ** The shape of [__post_init__] *)

Section PostInit.

Variable self : ActionChunkingTransformerConfig.

(** The validation as a decision list: each condition guards its own
    exception, and the last condition is never true when it is reached. *)
Lemma post_init_cases :
  __post_init__ self =
  if negb (startswith (vision_backbone self) "resnet")
  then Raise (backbone_error self)
  else if use_temporal_aggregation self
  then Raise temporal_aggregation_error
  else if (n_action_steps self >? chunk_size self)%Z
  then Raise (chunk_bound_error self)
  else if negb (n_obs_steps self =? 1)%Z
  then Raise (obs_steps_error self)
  else if seq_ne (camera_names self) (PyList ["top"])
  then Raise (only_top_error self)
  else Return tt.
Proof.
  unfold __post_init__.
  destruct (negb (startswith (vision_backbone self) "resnet")); [reflexivity |].
  destruct (use_temporal_aggregation self); [reflexivity |].
  destruct (n_action_steps self >? chunk_size self)%Z; [reflexivity |].
  destruct (negb (n_obs_steps self =? 1)%Z); [reflexivity |].
  destruct (seq_ne (camera_names self) (PyList ["top"])) eqn:Hcam;
    [reflexivity |].
  apply seq_ne_list in Hcam. rewrite Hcam. reflexivity.
Qed.

Lemma post_init_returns :
  startswith (vision_backbone self) "resnet" = true ->
  use_temporal_aggregation self = false ->
  n_action_steps self <= chunk_size self ->
  n_obs_steps self = 1 ->
  camera_names self = PyList ["top"] ->
  __post_init__ self = Return tt.
Proof.
  intros Hb Ht Hn Ho Hc. rewrite post_init_cases, Hb, Ht, Ho, Hc. simpl.
  destruct (Z.gtb_spec (n_action_steps self) (chunk_size self)); [lia | reflexivity].
Qed.

Lemma post_init_returns_inv :
  __post_init__ self = Return tt ->
  startswith (vision_backbone self) "resnet" = true /\
  use_temporal_aggregation self = false /\
  n_action_steps self <= chunk_size self /\
  n_obs_steps self = 1 /\
  camera_names self = PyList ["top"].
Proof.
  rewrite post_init_cases.
  destruct (startswith (vision_backbone self) "resnet"); [simpl | discriminate].
  destruct (use_temporal_aggregation self); [discriminate |].
  destruct (Z.gtb_spec (n_action_steps self) (chunk_size self)); [discriminate |].
  destruct (Z.eqb_spec (n_obs_steps self) 1); [simpl | discriminate].
  destruct (seq_ne (camera_names self) (PyList ["top"])) eqn:Hcam; [discriminate |].
  apply seq_ne_list in Hcam. intros _. repeat split; assumption.
Qed.

End PostInit.

(** ** The shape of [__init__] *)

Lemma init_unfold (kw : Kwargs) :
  __init__ kw =
  match __post_init__ (assign_fields kw) with
  | Return _ => Return (assign_fields kw)
  | Raise e => Raise e
  end.
Proof. reflexivity. Qed.

Lemma init_returns_inv (kw : Kwargs) (c : ActionChunkingTransformerConfig) :
  __init__ kw = Return c ->
  c = assign_fields kw /\ __post_init__ c = Return tt.
Proof.
  rewrite init_unfold.
  destruct (__post_init__ (assign_fields kw)) as [[] | e] eqn:Hpost; [| discriminate].
  intros [= <-]. split; [reflexivity | exact Hpost].
Qed.

Lemma assign_fields_as_supplied (kw : Kwargs) :
  fields_as_supplied kw (assign_fields kw).
Proof.
  unfold fields_as_supplied, as_supplied; simpl.
  repeat split; intros v ->; reflexivity.
Qed.

(** ** Default construction *)

(** C1. The call with no keyword argument assigns the declared defaults
    ([state_dim = 14], [action_dim = 14], [chunk_size = 100],
    [n_action_steps = 100], [vision_backbone = "resnet18"],
    [use_vae = True]), but it does not return: the default [camera_names]
    is the tuple [("top",)], which differs from the list [["top"]], so the
    fifth check raises [ValueError]. *)
Theorem default_construction_raises :
  let self := assign_fields no_overrides in
  (state_dim self = 14 /\ action_dim self = 14 /\ chunk_size self = 100 /\
   n_action_steps self = 100 /\ vision_backbone self = "resnet18" /\
   use_vae self = true) /\
  camera_names self = PyTuple ["top"] /\
  __init__ no_overrides =
  Raise (ValueError
           [Lit "For now, `camera_names` can only be ['top']. Got ";
            FmtSeq (PyTuple ["top"]); Lit "."]).
Proof.
  cbv zeta. split; [| split].
  - repeat split; reflexivity.
  - reflexivity.
  - rewrite init_unfold, post_init_cases. reflexivity.
Qed.

(** ** The temporal aggregation flag *)

(** C2, the claim as stated fails: with [vision_backbone="vit_base"] and
    [use_temporal_aggregation=True] the error is the [ValueError] of the
    backbone check, not [NotImplementedError]. *)
Lemma temporal_aggregation_behind_backbone_check :
  let kw := with_vision_backbone "vit_base"
              (with_use_temporal_aggregation true no_overrides) in
  use_temporal_aggregation (assign_fields kw) = true /\
  __init__ kw =
  Raise (ValueError
           [Lit "`vision_backbone` must be one of the ResNet variants. Got ";
            FmtStr "vit_base"; Lit "."]) /\
  kind_of (backbone_error (assign_fields kw)) = InvalidValue.
Proof.
  cbv zeta. split; [reflexivity | split; [| reflexivity]].
  rewrite init_unfold, post_init_cases. reflexivity.
Qed.

(** C2, amended. Whatever the other keyword arguments are, a call with
    [use_temporal_aggregation=True] raises: [NotImplementedError] when the
    backbone name starts with "resnet", and the [ValueError] of the backbone
    check otherwise. *)
Theorem temporal_aggregation_always_raises (kw : Kwargs) :
  let self := assign_fields (with_use_temporal_aggregation true kw) in
  __init__ (with_use_temporal_aggregation true kw) =
  Raise (if startswith (vision_backbone self) "resnet"
         then NotImplementedError
                [Lit "Temporal aggregation is not yet implemented."]
         else backbone_error self) /\
  kind_of (if startswith (vision_backbone self) "resnet"
           then NotImplementedError
                  [Lit "Temporal aggregation is not yet implemented."]
           else backbone_error self) =
  (if startswith (vision_backbone self) "resnet"
   then Unimplemented else InvalidValue).
Proof.
  cbv zeta. rewrite init_unfold, post_init_cases. simpl.
  destruct (startswith (arg (kw_vision_backbone kw) "resnet18") "resnet");
    split; reflexivity.
Qed.

(** ** The order of the checks *)

(** C3. [__post_init__] returns when no rule of the specification's list
    is violated, and otherwise raises the exception of the earliest
    violated rule of that list, whose kind is the one the specification
    attaches to the rule. *)
Theorem first_violated_rule_decides (self : ActionChunkingTransformerConfig) :
  __post_init__ self =
  match first_violated self with
  | None => Return tt
  | Some r => Raise (rule_error r self)
  end /\
  (forall r, kind_of (rule_error r self) = rule_kind r) /\
  spec_rules =
  [BackboneIsResnet; NoTemporalAggregation; ActionStepsWithinChunk;
   SingleObsStep; CamerasAreTop; CamerasDistinct].
Proof.
  split; [| split; [intros []; reflexivity | reflexivity]].
  rewrite post_init_cases. unfold first_violated, spec_rules, startswith.
  cbn [find rule_holds rule_error].
  destruct (String.prefix "resnet" (vision_backbone self)); [| reflexivity].
  destruct (use_temporal_aggregation self); [reflexivity |].
  cbn [negb].
  rewrite Z.gtb_ltb, (Z.leb_antisym (chunk_size self) (n_action_steps self)).
  rewrite negb_involutive.
  destruct (chunk_size self <? n_action_steps self)%Z; [reflexivity |].
  destruct (n_obs_steps self =? 1)%Z; [| reflexivity].
  cbn [negb]. unfold seq_ne.
  destruct (seq_eq (camera_names self) (PyList ["top"])) eqn:Hcam;
    [| reflexivity].
  apply seq_eq_list in Hcam. rewrite Hcam. reflexivity.
Qed.

(** ** The backbone name *)

(** C8. For every name that does not start with "resnet", and whatever the
    other keyword arguments are, the call raises the [ValueError] whose
    message carries that name. *)
Theorem non_resnet_backbone_rejected (kw : Kwargs) (name : string) :
  String.prefix "resnet" name = false ->
  __init__ (with_vision_backbone name kw) =
  Raise (ValueError
           [Lit "`vision_backbone` must be one of the ResNet variants. Got ";
            FmtStr name; Lit "."]) /\
  kind_of (backbone_error (assign_fields (with_vision_backbone name kw))) =
  InvalidValue.
Proof.
  intros Hname. split; [| reflexivity].
  rewrite init_unfold, post_init_cases. unfold startswith. simpl.
  rewrite Hname. reflexivity.
Qed.

Lemma non_resnet_backbone_rejected_vit_base :
  String.prefix "resnet" "vit_base" = false /\
  __init__ (with_vision_backbone "vit_base" no_overrides) =
  Raise (ValueError
           [Lit "`vision_backbone` must be one of the ResNet variants. Got ";
            FmtStr "vit_base"; Lit "."]).
Proof.
  split; [reflexivity |].
  apply (non_resnet_backbone_rejected no_overrides "vit_base"). reflexivity.
Defined.

(** ** Valid calls *)

(** C4. When the assigned fields satisfy all six rules, the call returns,
    and every field of the returned object holds the value supplied for
    it. *)
Theorem valid_construction_round_trip (kw : Kwargs) :
  Forall (fun r => rule_holds r (assign_fields kw) = true) spec_rules ->
  exists c,
    __init__ kw = Return c /\
    c = assign_fields kw /\
    fields_as_supplied kw c.
Proof.
  intros Hrules. exists (assign_fields kw).
  split; [| split; [reflexivity | apply assign_fields_as_supplied]].
  unfold spec_rules in Hrules.
  repeat (apply Forall_cons_1 in Hrules as [? Hrules]).
  cbn [rule_holds] in *.
  rewrite init_unfold, post_init_returns; [reflexivity | ..].
  - assumption.
  - now apply negb_true_iff.
  - now apply Z.leb_le.
  - now apply Z.eqb_eq.
  - now apply seq_eq_list.
Qed.

Lemma valid_construction_round_trip_top :
  exists c,
    __init__ (with_camera_names (PyList ["top"]) no_overrides) = Return c /\
    c = assign_fields (with_camera_names (PyList ["top"]) no_overrides) /\
    fields_as_supplied (with_camera_names (PyList ["top"]) no_overrides) c.
Proof.
  apply (valid_construction_round_trip
           (with_camera_names (PyList ["top"]) no_overrides)).
  repeat constructor.
Defined.

(** ** The bound on [n_action_steps] *)

(** C5, the claim as stated fails: with [n_action_steps=150],
    [chunk_size=100] and [use_temporal_aggregation=True] the error is
    [NotImplementedError], raised before the bound is looked at. *)
Lemma oversized_action_steps_behind_temporal_aggregation :
  let kw := with_n_action_steps 150
              (with_chunk_size 100
                 (with_use_temporal_aggregation true no_overrides)) in
  n_action_steps (assign_fields kw) > chunk_size (assign_fields kw) /\
  __init__ kw =
  Raise (NotImplementedError
           [Lit "Temporal aggregation is not yet implemented."]) /\
  kind_of temporal_aggregation_error = Unimplemented.
Proof.
  cbv zeta. split; [reflexivity | split; [| reflexivity]].
  rewrite init_unfold, post_init_cases. reflexivity.
Qed.

(** C5, amended. A call with [n_action_steps > chunk_size] raises whatever
    the other fields are: the error of the backbone check or of the
    temporal aggregation check when one of these is violated, and otherwise
    the [ValueError] that reports both values.  With
    [n_action_steps <= chunk_size] (equal or smaller) the call returns as
    soon as the other four checks pass. *)
Theorem action_steps_bound (kw : Kwargs) :
  let self := assign_fields kw in
  (n_action_steps self > chunk_size self ->
   exists e,
     __init__ kw = Raise e /\
     e = (if negb (startswith (vision_backbone self) "resnet")
          then backbone_error self
          else if use_temporal_aggregation self
          then temporal_aggregation_error
          else ValueError
                 [Lit "The chunk size is the upper bound for the number of action steps per model invocation. Got ";
                  FmtInt (n_action_steps self);
                  Lit " for `n_action_steps` and ";
                  FmtInt (chunk_size self); Lit " for `chunk_size`."]) /\
     kind_of e =
     (if startswith (vision_backbone self) "resnet"
         && use_temporal_aggregation self
      then Unimplemented else InvalidValue)) /\
  (n_action_steps self <= chunk_size self ->
   startswith (vision_backbone self) "resnet" = true ->
   use_temporal_aggregation self = false ->
   n_obs_steps self = 1 ->
   camera_names self = PyList ["top"] ->
   __init__ kw = Return self).
Proof.
  cbv zeta. split.
  - intros Hgt. rewrite init_unfold, post_init_cases.
    destruct (startswith (vision_backbone (assign_fields kw)) "resnet");
      cbn [negb andb].
    + destruct (use_temporal_aggregation (assign_fields kw)).
      * eexists. repeat split.
      * destruct (Z.gtb_spec (n_action_steps (assign_fields kw))
                    (chunk_size (assign_fields kw))) as [_ | Hle]; [| lia].
        eexists. repeat split.
    + eexists. repeat split.
  - intros Hle Hb Ht Ho Hc.
    rewrite init_unfold, post_init_returns; auto.
Qed.

Lemma action_steps_bound_examples :
  (exists e,
     __init__ (with_n_action_steps 150
                 (with_chunk_size 100
                    (with_camera_names (PyList ["top"]) no_overrides))) =
     Raise e /\
     e = ValueError
           [Lit "The chunk size is the upper bound for the number of action steps per model invocation. Got ";
            FmtInt 150; Lit " for `n_action_steps` and ";
            FmtInt 100; Lit " for `chunk_size`."] /\
     kind_of e = InvalidValue) /\
  __init__ (with_n_action_steps 100
              (with_chunk_size 100
                 (with_camera_names (PyList ["top"]) no_overrides))) =
  Return (assign_fields
            (with_n_action_steps 100
               (with_chunk_size 100
                  (with_camera_names (PyList ["top"]) no_overrides)))) /\
  __init__ (with_n_action_steps 50
              (with_chunk_size 100
                 (with_camera_names (PyList ["top"]) no_overrides))) =
  Return (assign_fields
            (with_n_action_steps 50
               (with_chunk_size 100
                  (with_camera_names (PyList ["top"]) no_overrides)))).
Proof.
  split; [| split].
  - apply (action_steps_bound
             (with_n_action_steps 150
                (with_chunk_size 100
                   (with_camera_names (PyList ["top"]) no_overrides)))).
    simpl. lia.
  - apply (action_steps_bound
             (with_n_action_steps 100
                (with_chunk_size 100
                   (with_camera_names (PyList ["top"]) no_overrides))));
      simpl; try reflexivity; lia.
  - apply (action_steps_bound
             (with_n_action_steps 50
                (with_chunk_size 100
                   (with_camera_names (PyList ["top"]) no_overrides))));
      simpl; try reflexivity; lia.
Defined.

(** ** The camera names *)

(** C6. Given keyword arguments that pass the four checks before the
    camera checks, [camera_names=["top", "top"]] and
    [camera_names=["left"]] both raise the [ValueError] of the exact-match
    check, and [camera_names=["top"]] returns the object. *)
Theorem camera_names_examples (kw : Kwargs) :
  startswith (vision_backbone (assign_fields kw)) "resnet" = true ->
  use_temporal_aggregation (assign_fields kw) = false ->
  n_action_steps (assign_fields kw) <= chunk_size (assign_fields kw) ->
  n_obs_steps (assign_fields kw) = 1 ->
  (__init__ (with_camera_names (PyList ["top"; "top"]) kw) =
   Raise (ValueError
            [Lit "For now, `camera_names` can only be ['top']. Got ";
             FmtSeq (PyList ["top"; "top"]); Lit "."]) /\
   kind_of (only_top_error
              (assign_fields (with_camera_names (PyList ["top"; "top"]) kw))) =
   InvalidValue) /\
  (__init__ (with_camera_names (PyList ["left"]) kw) =
   Raise (ValueError
            [Lit "For now, `camera_names` can only be ['top']. Got ";
             FmtSeq (PyList ["left"]); Lit "."]) /\
   kind_of (only_top_error
              (assign_fields (with_camera_names (PyList ["left"]) kw))) =
   InvalidValue) /\
  __init__ (with_camera_names (PyList ["top"]) kw) =
  Return (assign_fields (with_camera_names (PyList ["top"]) kw)).
Proof.
  intros Hb Ht Hn Ho.
  assert (Hgt : (n_action_steps (assign_fields kw)
                   >? chunk_size (assign_fields kw))%Z = false).
  { destruct (Z.gtb_spec (n_action_steps (assign_fields kw))
                (chunk_size (assign_fields kw))); [lia | reflexivity]. }
  simpl in Hb, Ht, Hgt, Ho.
  repeat split;
    rewrite init_unfold, post_init_cases; simpl;
    rewrite Hb, Ht, Hgt, Ho; reflexivity.
Qed.

Lemma camera_names_examples_defaults :
  (__init__ (with_camera_names (PyList ["top"; "top"]) no_overrides) =
   Raise (ValueError
            [Lit "For now, `camera_names` can only be ['top']. Got ";
             FmtSeq (PyList ["top"; "top"]); Lit "."]) /\
   kind_of (only_top_error
              (assign_fields
                 (with_camera_names (PyList ["top"; "top"]) no_overrides))) =
   InvalidValue) /\
  (__init__ (with_camera_names (PyList ["left"]) no_overrides) =
   Raise (ValueError
            [Lit "For now, `camera_names` can only be ['top']. Got ";
             FmtSeq (PyList ["left"]); Lit "."]) /\
   kind_of (only_top_error
              (assign_fields
                 (with_camera_names (PyList ["left"]) no_overrides))) =
   InvalidValue) /\
  __init__ (with_camera_names (PyList ["top"]) no_overrides) =
  Return (assign_fields (with_camera_names (PyList ["top"]) no_overrides)).
Proof.
  apply (camera_names_examples no_overrides); simpl; try reflexivity; lia.
Defined.

(** ** What a returned object satisfies *)

(** C7, the claim as stated fails: the call below returns an object whose
    [state_dim] is zero and whose [action_dim], [chunk_size] and
    [n_action_steps] are negative. *)
Lemma nonpositive_dimensions_accepted :
  let kw := with_state_dim 0
              (with_action_dim (-3)
                 (with_chunk_size (-1)
                    (with_n_action_steps (-2)
                       (with_camera_names (PyList ["top"]) no_overrides)))) in
  __init__ kw = Return (assign_fields kw) /\
  state_dim (assign_fields kw) = 0 /\
  action_dim (assign_fields kw) = -3 /\
  chunk_size (assign_fields kw) = -1 /\
  n_action_steps (assign_fields kw) = -2.
Proof.
  cbv zeta. split; [| repeat split; reflexivity].
  rewrite init_unfold, post_init_cases. reflexivity.
Qed.

(** C7, amended. A returned object passed the five checks that can raise,
    so [n_action_steps <= chunk_size] holds of it; its [state_dim],
    [action_dim], [chunk_size] and [n_action_steps] are the integers that
    were supplied (the defaults 14, 14, 100 and 100 otherwise), of either
    sign. *)
Theorem returned_config_invariants
    (kw : Kwargs) (c : ActionChunkingTransformerConfig) :
  __init__ kw = Return c ->
  (startswith (vision_backbone c) "resnet" = true /\
   use_temporal_aggregation c = false /\
   n_action_steps c <= chunk_size c /\
   n_obs_steps c = 1 /\
   camera_names c = PyList ["top"]) /\
  state_dim c = arg (kw_state_dim kw) 14 /\
  action_dim c = arg (kw_action_dim kw) 14 /\
  chunk_size c = arg (kw_chunk_size kw) 100 /\
  n_action_steps c = arg (kw_n_action_steps kw) 100.
Proof.
  intros Hret. apply init_returns_inv in Hret as [-> Hpost].
  split; [apply post_init_returns_inv, Hpost | repeat split].
Qed.

Lemma returned_config_invariants_top :
  let kw := with_camera_names (PyList ["top"]) no_overrides in
  let c := assign_fields kw in
  __init__ kw = Return c /\
  n_action_steps c <= chunk_size c /\
  state_dim c = 14 /\ action_dim c = 14 /\
  chunk_size c = 100 /\ n_action_steps c = 100.
Proof.
  cbv zeta.
  assert (Hret : __init__ (with_camera_names (PyList ["top"]) no_overrides) =
                 Return (assign_fields
                           (with_camera_names (PyList ["top"]) no_overrides))).
  { reflexivity. }
  split; [exact Hret |].
  destruct (returned_config_invariants _ _ Hret)
    as [(_ & _ & Hle & _ & _) (Hs & Ha & Hc & Hn)].
  repeat split; assumption.
Defined.

(** C9. The condition of the sixth [raise] is false whenever the fifth
    check did not raise, so a call either returns or raises the exception
    of one of the first five checks; the "repeated entries" error is never
    raised. *)
Theorem repeated_entries_branch_unreachable (kw : Kwargs) :
  let self := assign_fields kw in
  seq_ne (camera_names self) (PyList ["top"])
  || Nat.eqb (len_set (camera_names self)) (len (camera_names self)) = true /\
  (__init__ kw = Return self \/
   exists r,
     In r [BackboneIsResnet; NoTemporalAggregation; ActionStepsWithinChunk;
           SingleObsStep; CamerasAreTop] /\
     __init__ kw = Raise (rule_error r self)) /\
  (forall other, __init__ kw <> Raise (repeated_entries_error other)).
Proof.
  cbv zeta.
  assert (Hguard :
            seq_ne (camera_names (assign_fields kw)) (PyList ["top"])
            || Nat.eqb (len_set (camera_names (assign_fields kw)))
                 (len (camera_names (assign_fields kw))) = true).
  { destruct (seq_ne (camera_names (assign_fields kw)) (PyList ["top"]))
      eqn:Hcam; [reflexivity |].
    apply seq_ne_list in Hcam. rewrite Hcam. reflexivity. }
  split; [exact Hguard |].
  assert (Hother : forall r,
             In r [BackboneIsResnet; NoTemporalAggregation;
                   ActionStepsWithinChunk; SingleObsStep; CamerasAreTop] ->
             forall other,
               @Raise ActionChunkingTransformerConfig
                 (rule_error r (assign_fields kw)) <>
               Raise (repeated_entries_error other)).
  { intros r Hin other. simpl in Hin.
    destruct Hin as [<- | [<- | [<- | [<- | [<- | []]]]]]; discriminate. }
  rewrite init_unfold, post_init_cases.
  destruct (negb (startswith (vision_backbone (assign_fields kw)) "resnet")).
  { split; [right; exists BackboneIsResnet | apply (Hother BackboneIsResnet)];
      simpl; auto 9. }
  destruct (use_temporal_aggregation (assign_fields kw)).
  { split; [right; exists NoTemporalAggregation
           | apply (Hother NoTemporalAggregation)]; simpl; auto 9. }
  destruct (n_action_steps (assign_fields kw) >? chunk_size (assign_fields kw))%Z.
  { split; [right; exists ActionStepsWithinChunk
           | apply (Hother ActionStepsWithinChunk)]; simpl; auto 9. }
  destruct (negb (n_obs_steps (assign_fields kw) =? 1)%Z).
  { split; [right; exists SingleObsStep | apply (Hother SingleObsStep)];
      simpl; auto 9. }
  destruct (seq_ne (camera_names (assign_fields kw)) (PyList ["top"])).
  { split; [right; exists CamerasAreTop | apply (Hother CamerasAreTop)];
      simpl; auto 9. }
  split; [left; reflexivity | discriminate].
Qed.

(** C10. A call whose [camera_names] is a tuple never returns, whatever
    the other keyword arguments are, and its error is a [ValueError] unless
    the temporal aggregation check raised first; when the four earlier
    checks pass, it is the [ValueError] of the exact-match check.  This covers the call
    that leaves [camera_names] at its default [("top",)].  A call that
    returns has [camera_names] equal to the list [["top"]]. *)
Theorem tuple_camera_names_rejected (kw : Kwargs) (items : list string) :
  let kw' := with_camera_names (PyTuple items) kw in
  (exists e,
     __init__ kw' = Raise e /\
     kind_of e =
     (if startswith (vision_backbone (assign_fields kw)) "resnet"
         && use_temporal_aggregation (assign_fields kw)
      then Unimplemented else InvalidValue)) /\
  (startswith (vision_backbone (assign_fields kw)) "resnet" = true ->
   use_temporal_aggregation (assign_fields kw) = false ->
   n_action_steps (assign_fields kw) <= chunk_size (assign_fields kw) ->
   n_obs_steps (assign_fields kw) = 1 ->
   __init__ kw' =
   Raise (ValueError
            [Lit "For now, `camera_names` can only be ['top']. Got ";
             FmtSeq (PyTuple items); Lit "."]) /\
   kind_of (only_top_error (assign_fields kw')) = InvalidValue) /\
  (exists e,
     __init__ no_overrides = Raise e /\
     e = ValueError
           [Lit "For now, `camera_names` can only be ['top']. Got ";
            FmtSeq (PyTuple ["top"]); Lit "."] /\
     kind_of e = InvalidValue) /\
  (forall c, __init__ kw = Return c -> camera_names c = PyList ["top"]).
Proof.
  cbv zeta. split; [| split; [| split]].
  - rewrite init_unfold, post_init_cases. simpl.
    destruct (startswith (arg (kw_vision_backbone kw) "resnet18") "resnet");
      cbn [negb andb]; [| eexists; split; reflexivity].
    destruct (arg (kw_use_temporal_aggregation kw) false);
      [eexists; split; reflexivity |].
    repeat match goal with
           | |- context [if ?b then _ else _] => destruct b
           end; eexists; split; reflexivity.
  - intros Hb Ht Hn Ho.
    assert (Hgt : (n_action_steps (assign_fields kw)
                     >? chunk_size (assign_fields kw))%Z = false).
    { destruct (Z.gtb_spec (n_action_steps (assign_fields kw))
                  (chunk_size (assign_fields kw))); [lia | reflexivity]. }
    simpl in Hb, Ht, Hgt, Ho. split; [| reflexivity].
    rewrite init_unfold, post_init_cases. simpl.
    rewrite Hb, Ht, Hgt, Ho. reflexivity.
  - eexists. split; [| split; reflexivity].
    rewrite init_unfold, post_init_cases. reflexivity.
  - intros c Hret. apply init_returns_inv in Hret as [_ Hpost].
    apply post_init_returns_inv in Hpost. tauto.
Qed.

Lemma tuple_camera_names_rejected_top :
  (exists e,
     __init__ (with_camera_names (PyTuple ["top"]) no_overrides) = Raise e /\
     kind_of e = InvalidValue) /\
  __init__ (with_camera_names (PyTuple ["top"]) no_overrides) =
  Raise (ValueError
           [Lit "For now, `camera_names` can only be ['top']. Got ";
            FmtSeq (PyTuple ["top"]); Lit "."]) /\
  camera_names (assign_fields (with_camera_names (PyList ["top"]) no_overrides)) =
  PyList ["top"].
Proof.
  split; [| split].
  - apply (tuple_camera_names_rejected no_overrides ["top"]).
  - apply (tuple_camera_names_rejected no_overrides ["top"]);
      simpl; try reflexivity; lia.
  - destruct (tuple_camera_names_rejected
                (with_camera_names (PyList ["top"]) no_overrides) [])
      as (_ & _ & _ & Hret).
    apply Hret. reflexivity.
Defined.

(** ** Further properties of the validation *)

(** *** The duplicate test *)

Section DuplicateTest.

Implicit Types l : list string.

Lemma size_list_to_set_le l :
  (size (list_to_set (C := gset string) l) <= length l)%nat.
Proof.
  induction l as [| x l IH]; [reflexivity |].
  rewrite list_to_set_cons, size_union_alt, size_singleton. simpl.
  apply le_n_S. etransitivity; [| exact IH].
  apply subseteq_size, elem_of_subseteq.
  intros y [Hy _]%elem_of_difference. exact Hy.
Qed.

Lemma size_list_to_set_NoDup l :
  size (list_to_set (C := gset string) l) = length l -> NoDup l.
Proof.
  induction l as [| x l IH]; [intros _; constructor |].
  rewrite list_to_set_cons. simpl. intros Hsize.
  destruct (decide (x ∈ l)) as [Hin | Hnotin].
  - assert (Hmem : x ∈ list_to_set (C := gset string) l)
      by (apply elem_of_list_to_set; exact Hin).
    assert (Heq : {[x]} ∪ list_to_set l = list_to_set (C := gset string) l).
    { apply leibniz_equiv, subseteq_union_1, singleton_subseteq_l, Hmem. }
    rewrite Heq in Hsize. pose proof (size_list_to_set_le l). lia.
  - assert (Hfresh : x ∉ list_to_set (C := gset string) l)
      by (rewrite elem_of_list_to_set; exact Hnotin).
    rewrite size_union, size_singleton in Hsize
      by (apply disjoint_singleton_l, Hfresh).
    constructor; [exact Hnotin | apply IH; lia].
Qed.

End DuplicateTest.

(** X1. The test [len(set(x)) != len(x)] of the sixth check is false
    exactly on the sequences without a repeated entry. *)
Theorem len_set_detects_duplicates (s : seq_value) :
  Nat.eqb (len_set s) (len s) = true <-> NoDup (items_of s).
Proof.
  unfold len_set, len. rewrite Nat.eqb_eq. split.
  - apply size_list_to_set_NoDup.
  - apply size_list_to_set.
Qed.

(** *** When a call returns *)

(** X2. A call returns if and only if the assigned fields pass the five
    checks that can raise: the backbone name starts with "resnet", the
    temporal aggregation flag is off, [n_action_steps <= chunk_size],
    [n_obs_steps == 1] and [camera_names] is the list [["top"]]; the object
    it returns then carries exactly the assigned fields. *)
Theorem construction_returns_iff (kw : Kwargs) :
  ((exists c, __init__ kw = Return c) <->
   (startswith (vision_backbone (assign_fields kw)) "resnet" = true /\
    use_temporal_aggregation (assign_fields kw) = false /\
    n_action_steps (assign_fields kw) <= chunk_size (assign_fields kw) /\
    n_obs_steps (assign_fields kw) = 1 /\
    camera_names (assign_fields kw) = PyList ["top"])) /\
  (forall c, __init__ kw = Return c <->
             c = assign_fields kw /\ __post_init__ c = Return tt).
Proof.
  split; [split |].
  - intros [c Hret]. apply init_returns_inv in Hret as [-> Hpost].
    apply post_init_returns_inv, Hpost.
  - intros (Hb & Ht & Hn & Ho & Hc). exists (assign_fields kw).
    rewrite init_unfold, post_init_returns; auto.
  - intros c. split; [apply init_returns_inv |].
    intros [-> Hpost]. rewrite init_unfold, Hpost. reflexivity.
Qed.

(** X3. Validation reads six fields only: two calls whose assigned
    [vision_backbone], [use_temporal_aggregation], [n_action_steps],
    [chunk_size], [n_obs_steps] and [camera_names] agree both return or
    both raise the same exception, however their other fields differ. *)
Theorem validation_reads_six_fields (kw1 kw2 : Kwargs) :
  vision_backbone (assign_fields kw1) = vision_backbone (assign_fields kw2) ->
  use_temporal_aggregation (assign_fields kw1) =
  use_temporal_aggregation (assign_fields kw2) ->
  n_action_steps (assign_fields kw1) = n_action_steps (assign_fields kw2) ->
  chunk_size (assign_fields kw1) = chunk_size (assign_fields kw2) ->
  n_obs_steps (assign_fields kw1) = n_obs_steps (assign_fields kw2) ->
  camera_names (assign_fields kw1) = camera_names (assign_fields kw2) ->
  same_outcome (__init__ kw1) (__init__ kw2).
Proof.
  intros Hb Ht Hn Hc Ho Hcam.
  assert (Hpost : __post_init__ (assign_fields kw1) =
                  __post_init__ (assign_fields kw2)).
  { rewrite !post_init_cases.
    unfold backbone_error, chunk_bound_error, obs_steps_error, only_top_error.
    rewrite Hb, Ht, Hn, Hc, Ho, Hcam. reflexivity. }
  rewrite !init_unfold, Hpost.
  destruct (__post_init__ (assign_fields kw2)); simpl; auto.
Qed.

Lemma validation_reads_six_fields_state_dim :
  same_outcome
    (__init__ (with_state_dim 7 (with_camera_names (PyList ["top"]) no_overrides)))
    (__init__ (with_action_dim 0 (with_camera_names (PyList ["top"]) no_overrides))) /\
  same_outcome
    (__init__ (with_state_dim 7 (with_n_obs_steps 2 no_overrides)))
    (__init__ (with_n_obs_steps 2 no_overrides)).
Proof.
  split.
  - apply (validation_reads_six_fields
             (with_state_dim 7 (with_camera_names (PyList ["top"]) no_overrides))
             (with_action_dim 0 (with_camera_names (PyList ["top"]) no_overrides)));
      reflexivity.
  - apply (validation_reads_six_fields
             (with_state_dim 7 (with_n_obs_steps 2 no_overrides))
             (with_n_obs_steps 2 no_overrides)); reflexivity.
Defined.

(** *** Which error a call raises *)

(** X4. The exception tells which check failed: each raise site's
    exception is the outcome exactly when its check is violated and the
    checks before it pass. *)
Theorem raised_error_identifies_check (self : ActionChunkingTransformerConfig) :
  (__post_init__ self = Raise (backbone_error self) <->
   startswith (vision_backbone self) "resnet" = false) /\
  (__post_init__ self = Raise temporal_aggregation_error <->
   startswith (vision_backbone self) "resnet" = true /\
   use_temporal_aggregation self = true) /\
  (__post_init__ self = Raise (chunk_bound_error self) <->
   startswith (vision_backbone self) "resnet" = true /\
   use_temporal_aggregation self = false /\
   n_action_steps self > chunk_size self) /\
  (__post_init__ self = Raise (obs_steps_error self) <->
   startswith (vision_backbone self) "resnet" = true /\
   use_temporal_aggregation self = false /\
   n_action_steps self <= chunk_size self /\
   n_obs_steps self <> 1) /\
  (__post_init__ self = Raise (only_top_error self) <->
   startswith (vision_backbone self) "resnet" = true /\
   use_temporal_aggregation self = false /\
   n_action_steps self <= chunk_size self /\
   n_obs_steps self = 1 /\
   camera_names self <> PyList ["top"]).
Proof.
  rewrite post_init_cases.
  destruct (startswith (vision_backbone self) "resnet"); cbn [negb];
    [| repeat split; intros; try discriminate; try tauto;
       repeat match goal with H : _ /\ _ |- _ => destruct H end;
       discriminate].
  destruct (use_temporal_aggregation self);
    [repeat split; intros; try discriminate; try tauto;
     repeat match goal with H : _ /\ _ |- _ => destruct H end;
     discriminate |].
  destruct (Z.gtb_spec (n_action_steps self) (chunk_size self)) as [Hgt | Hle];
    [repeat split; intros; try discriminate; try tauto; try lia;
     repeat match goal with H : _ /\ _ |- _ => destruct H end;
     try discriminate; lia |].
  destruct (Z.eqb_spec (n_obs_steps self) 1) as [Hone | Hmany]; cbn [negb];
    [| repeat split; intros; try discriminate; try tauto; try lia;
       repeat match goal with H : _ /\ _ |- _ => destruct H end;
       try discriminate; try lia; contradiction].
  destruct (seq_ne (camera_names self) (PyList ["top"])) eqn:Hcam.
  - assert (Hother : camera_names self <> PyList ["top"]).
    { intros Heq. apply seq_ne_list in Heq. congruence. }
    repeat split; intros; try discriminate; try tauto; try lia;
      repeat match goal with H : _ /\ _ |- _ => destruct H end;
      try discriminate; try lia; contradiction.
  - apply seq_ne_list in Hcam.
    repeat split; intros; try discriminate; try tauto; try lia;
      repeat match goal with H : _ /\ _ |- _ => destruct H end;
      try discriminate; try lia; contradiction.
Qed.

(** *** The number of observation steps *)

(** X5. A call with [n_obs_steps] different from 1 never returns, whatever
    the other keyword arguments are; when the three earlier checks pass it
    raises the [ValueError] that reports the given number. *)
Theorem obs_steps_must_be_one (kw : Kwargs) (v : Z) :
  v <> 1 ->
  (exists e, __init__ (with_n_obs_steps v kw) = Raise e) /\
  (startswith (vision_backbone (assign_fields kw)) "resnet" = true ->
   use_temporal_aggregation (assign_fields kw) = false ->
   n_action_steps (assign_fields kw) <= chunk_size (assign_fields kw) ->
   __init__ (with_n_obs_steps v kw) =
   Raise (ValueError
            [Lit "Multiple observation steps not handled yet. Got `nobs_steps=";
             FmtInt v; Lit "`"])).
Proof.
  intros Hv.
  assert (Hne : (v =? 1)%Z = false) by (apply Z.eqb_neq; exact Hv).
  split.
  - rewrite init_unfold, post_init_cases. simpl. rewrite Hne. cbn [negb].
    repeat match goal with
           | |- context [if ?b then _ else _] => destruct b
           end; eexists; reflexivity.
  - intros Hb Ht Hn.
    assert (Hgt : (n_action_steps (assign_fields kw)
                     >? chunk_size (assign_fields kw))%Z = false).
    { destruct (Z.gtb_spec (n_action_steps (assign_fields kw))
                  (chunk_size (assign_fields kw))); [lia | reflexivity]. }
    simpl in Hb, Ht, Hgt.
    rewrite init_unfold, post_init_cases. simpl.
    rewrite Hb, Ht, Hgt, Hne. reflexivity.
Qed.

Lemma obs_steps_must_be_one_examples :
  __init__ (with_n_obs_steps 2 no_overrides) =
  Raise (ValueError
           [Lit "Multiple observation steps not handled yet. Got `nobs_steps=";
            FmtInt 2; Lit "`"]) /\
  __init__ (with_n_obs_steps 0 (with_camera_names (PyList ["top"]) no_overrides)) =
  Raise (ValueError
           [Lit "Multiple observation steps not handled yet. Got `nobs_steps=";
            FmtInt 0; Lit "`"]).
Proof.
  split.
  - apply (obs_steps_must_be_one no_overrides 2);
      simpl; try reflexivity; lia.
  - apply (obs_steps_must_be_one
             (with_camera_names (PyList ["top"]) no_overrides) 0);
      simpl; try reflexivity; lia.
Defined.

(** *** Leaving [camera_names] out *)

(** X6. A call that does not pass [camera_names] never returns, whatever
    it passes for the other fields: the field is then the default tuple
    [("top",)], and when the four earlier checks pass the call raises the
    [ValueError] of the exact-match check. *)
Theorem omitted_camera_names_raises (kw : Kwargs) :
  kw_camera_names kw = None ->
  (exists e, __init__ kw = Raise e) /\
  (startswith (vision_backbone (assign_fields kw)) "resnet" = true ->
   use_temporal_aggregation (assign_fields kw) = false ->
   n_action_steps (assign_fields kw) <= chunk_size (assign_fields kw) ->
   n_obs_steps (assign_fields kw) = 1 ->
   __init__ kw =
   Raise (ValueError
            [Lit "For now, `camera_names` can only be ['top']. Got ";
             FmtSeq (PyTuple ["top"]); Lit "."])).
Proof.
  intros Hnone.
  assert (Hcam : camera_names (assign_fields kw) = PyTuple ["top"]).
  { simpl. rewrite Hnone. reflexivity. }
  split.
  - rewrite init_unfold, post_init_cases, Hcam.
    change (seq_ne (PyTuple ["top"]) (PyList ["top"])) with true.
    repeat match goal with
           | |- context [if ?b then _ else _] => destruct b
           end; eexists; reflexivity.
  - intros Hb Ht Hn Ho.
    assert (Hgt : (n_action_steps (assign_fields kw)
                     >? chunk_size (assign_fields kw))%Z = false).
    { destruct (Z.gtb_spec (n_action_steps (assign_fields kw))
                  (chunk_size (assign_fields kw))); [lia | reflexivity]. }
    rewrite init_unfold, post_init_cases.
    unfold only_top_error. rewrite Hb, Ht, Hgt, Ho, Hcam. reflexivity.
Qed.

Lemma omitted_camera_names_raises_example :
  __init__ (with_state_dim 7 (with_n_action_steps 50 no_overrides)) =
  Raise (ValueError
           [Lit "For now, `camera_names` can only be ['top']. Got ";
            FmtSeq (PyTuple ["top"]); Lit "."]).
Proof.
  apply (omitted_camera_names_raises
           (with_state_dim 7 (with_n_action_steps 50 no_overrides)));
    simpl; try reflexivity; lia.
Defined.

(** *** Changing the two horizon lengths of a valid call *)

(** X7. Starting from a call that returns, passing other values [m] for
    [n_action_steps] and [k] for [chunk_size] returns again when [m <= k],
    and raises the [ValueError] reporting [m] and [k] when [m > k]. *)
Theorem horizons_of_valid_call
    (kw : Kwargs) (c : ActionChunkingTransformerConfig) (m k : Z) :
  __init__ kw = Return c ->
  (m <= k ->
   __init__ (with_n_action_steps m (with_chunk_size k kw)) =
   Return (assign_fields (with_n_action_steps m (with_chunk_size k kw)))) /\
  (m > k ->
   __init__ (with_n_action_steps m (with_chunk_size k kw)) =
   Raise (ValueError
            [Lit "The chunk size is the upper bound for the number of action steps per model invocation. Got ";
             FmtInt m; Lit " for `n_action_steps` and ";
             FmtInt k; Lit " for `chunk_size`."])).
Proof.
  intros Hret. apply init_returns_inv in Hret as [-> Hpost].
  apply post_init_returns_inv in Hpost as (Hb & Ht & _ & Ho & Hc).
  simpl in Hb, Ht, Ho, Hc.
  split; intros Hmk; rewrite init_unfold, post_init_cases; simpl;
    rewrite Hb, Ht, Ho, Hc; cbn [negb];
    destruct (Z.gtb_spec m k); try lia; reflexivity.
Qed.

Lemma horizons_of_valid_call_examples :
  __init__ (with_n_action_steps 50
              (with_chunk_size 60
                 (with_camera_names (PyList ["top"]) no_overrides))) =
  Return (assign_fields
            (with_n_action_steps 50
               (with_chunk_size 60
                  (with_camera_names (PyList ["top"]) no_overrides)))) /\
  __init__ (with_n_action_steps 5
              (with_chunk_size 4
                 (with_camera_names (PyList ["top"]) no_overrides))) =
  Raise (ValueError
           [Lit "The chunk size is the upper bound for the number of action steps per model invocation. Got ";
            FmtInt 5; Lit " for `n_action_steps` and ";
            FmtInt 4; Lit " for `chunk_size`."]).
Proof.
  assert (Hret : __init__ (with_camera_names (PyList ["top"]) no_overrides) =
                 Return (assign_fields
                           (with_camera_names (PyList ["top"]) no_overrides)))
    by reflexivity.
  split.
  - apply (horizons_of_valid_call _ _ 50 60 Hret). lia.
  - apply (horizons_of_valid_call _ _ 5 4 Hret). lia.
Defined.

(** *** Passing every field *)

(** X8. In a call that passes every field, no default is used: the
    assigned object is the one whose fields were passed, the call returns
    it or raises what validation of it raises, and passing the fields of a
    returned object constructs that object again. *)
Theorem all_fields_round_trip (c : ActionChunkingTransformerConfig) :
  assign_fields (all_fields c) = c /\
  __init__ (all_fields c) =
  match __post_init__ c with
  | Return _ => Return c
  | Raise e => Raise e
  end /\
  (forall kw, __init__ kw = Return c -> __init__ (all_fields c) = Return c).
Proof.
  assert (Hassign : assign_fields (all_fields c) = c)
    by (destruct c; reflexivity).
  split; [exact Hassign | split].
  - rewrite init_unfold, Hassign. reflexivity.
  - intros kw Hret. apply init_returns_inv in Hret as [_ Hpost].
    rewrite init_unfold, Hassign, Hpost. reflexivity.
Qed.

Lemma all_fields_round_trip_top :
  __init__ (all_fields
              (assign_fields (with_camera_names (PyList ["top"]) no_overrides))) =
  Return (assign_fields (with_camera_names (PyList ["top"]) no_overrides)).
Proof.
  apply (all_fields_round_trip
           (assign_fields (with_camera_names (PyList ["top"]) no_overrides)))
    with (kw := with_camera_names (PyList ["top"]) no_overrides).
  reflexivity.
Defined.
